(** * The Pandora catalogue search tool of [agent.py]

    A shallow embedding of [pandora_search_catalog] and of the pieces of
    Python and of the [httpx] client it relies on, followed by the
    properties of the tool.

    Text is modelled by [string]; a character stands for the code point
    of the same number, below 256.  [Str.upper] changes the ASCII
    letters as [str.upper] does and leaves the rest; the code points
    128..255 never upper-case to text that a key of [CONTENT_TYPE_MAP]
    holds, so the lookup of an upper-cased text is the one Python
    makes.  Text with code points from 256 on is not modelled; a few of
    those (U+017F, U+0131, U+FB05, U+FB06) upper-case to ASCII letters,
    so a property that depends on how [Str.upper] computes is stated
    for ASCII text only. *)

From Stdlib Require Import ZArith Ascii String List Lia.
From stdpp Require Import base option strings gmap.
Import ListNotations.

Local Open Scope Z_scope.

(** ** Python strings *)

Module Str.

(** The double quote, written by its code so that no literal has to
    escape it. *)
Definition dquote : ascii := "034"%char.
Definition backslash : ascii := "092"%char.
Definition newline : ascii := "010"%char.
Definition carriage_return : ascii := "013"%char.
Definition space : ascii := " "%char.
Definition hash : ascii := "#"%char.

Definition quoted (s : string) : string :=
  String dquote (s +:+ String dquote EmptyString).

Definition islower (c : ascii) : bool :=
  let n := nat_of_ascii c in (97 <=? n)%nat && (n <=? 122)%nat.

Definition upper_char (c : ascii) : ascii :=
  if islower c then ascii_of_nat (nat_of_ascii c - 32) else c.

(** [s.upper()] *)
Fixpoint upper (s : string) : string :=
  match s with
  | EmptyString => EmptyString
  | String c s' => String (upper_char c) (upper s')
  end.

(** [s.replace(old, new)] for one-character [old] and [new], the only
    form the tool uses. *)
Fixpoint replace (old new : ascii) (s : string) : string :=
  match s with
  | EmptyString => EmptyString
  | String c s' =>
      String (if Ascii.eqb c old then new else c) (replace old new s')
  end.

(** [c.isspace()] on the code points below 256: tab to carriage
    return, the four separators 28..31, the space, NEL and the
    no-break space. *)
Definition isspace (c : ascii) : bool :=
  let n := nat_of_ascii c in
  ((9 <=? n)%nat && (n <=? 13)%nat)
  || ((28 <=? n)%nat && (n <=? 32)%nat)
  || (n =? 133)%nat || (n =? 160)%nat.

Fixpoint lstrip (s : string) : string :=
  match s with
  | EmptyString => EmptyString
  | String c s' => if isspace c then lstrip s' else s
  end.

Fixpoint rstrip (s : string) : string :=
  match s with
  | EmptyString => EmptyString
  | String c s' =>
      match rstrip s' with
      | EmptyString => if isspace c then EmptyString else String c EmptyString
      | r => String c r
      end
  end.

(** [s.strip()] *)
Definition strip (s : string) : string := rstrip (lstrip s).

Fixpoint contains (c : ascii) (s : string) : bool :=
  match s with
  | EmptyString => false
  | String d s' => Ascii.eqb d c || contains c s'
  end.

Definition first (s : string) : option ascii :=
  match s with
  | EmptyString => None
  | String c _ => Some c
  end.

Fixpoint last (s : string) : option ascii :=
  match s with
  | EmptyString => None
  | String c EmptyString => Some c
  | String _ s' => last s'
  end.

End Str.

(** ** Python values

    The values the tool builds and returns: [None], booleans, integers,
    strings, lists and dictionaries with string keys, kept in insertion
    order as Python keeps them. *)

#[warnings="-register-all"]
Inductive value : Type :=
| VNone : value
| VBool : bool -> value
| VInt : Z -> value
| VStr : string -> value
| VList : list value -> value
| VDict : list (string * value) -> value.

(** [list(d.keys())]; [None] when the value is no dictionary. *)
Definition keys (v : value) : option (list string) :=
  match v with
  | VDict kvs => Some (map fst kvs)
  | _ => None
  end.

(** [d.get(k)] on a dictionary value: the first binding of [k]. *)
Fixpoint assoc (k : string) (kvs : list (string * value)) : option value :=
  match kvs with
  | [] => None
  | (k', v) :: rest => if String.eqb k k' then Some v else assoc k rest
  end.

Definition get (k : string) (v : value) : option value :=
  match v with
  | VDict kvs => assoc k kvs
  | _ => None
  end.

(** ** Exceptions

    Every failure the HTTP client reports derives from [Exception]; an
    exception carries the text [str(e)] yields. *)

Inductive exception : Type :=
| ConnectError : string -> exception
| TimeoutException : string -> exception
| HTTPStatusError : string -> exception
| JSONDecodeError : string -> exception
| OtherException : string -> exception.

Definition str_of (e : exception) : string :=
  match e with
  | ConnectError m | TimeoutException m | HTTPStatusError m
  | JSONDecodeError m | OtherException m => m
  end.

(** ** The HTTP client *)

Record request : Type := Request {
  url : string;
  headers : list (string * string);
  json : value;
  timeout : Z
}.

(** A received response: its status, its raw body [text], what
    [json()] makes of the body (the decoded value, or the decoding
    error), and the message [raise_for_status] composes for it. *)
Record response : Type := Response {
  status_code : Z;
  text : string;
  decoded : exception + value;
  status_message : string
}.

(** The remote side answers a request with a response or the client
    gives up with an exception; [sent] logs the requests issued. *)
Record world : Type := World {
  respond : request -> exception + response;
  sent : list request
}.

(** The local variables of one invocation that the code inspects:
    [response] is bound once [httpx.post] has returned. *)
Record frame : Type := Frame {
  local_response : option response
}.

Definition empty_frame : frame := {| local_response := None |}.

(** ** Computations: state and exceptions *)

Definition M (A : Type) : Type :=
  world * frame -> (exception + A) * (world * frame).

Definition ret {A} (a : A) : M A := fun s => (inr a, s).

Definition bind {A B} (m : M A) (k : A -> M B) : M B :=
  fun s =>
    match m s with
    | (inl e, s') => (inl e, s')
    | (inr a, s') => k a s'
    end.

Definition raise {A} (e : exception) : M A := fun s => (inl e, s).

(** [try: body except Exception as e: handler e]; what the body did to
    the state before it raised stays done. *)
Definition try_except {A} (body : M A) (handler : exception -> M A) : M A :=
  fun s =>
    match body s with
    | (inl e, s') => handler e s'
    | (inr a, s') => (inr a, s')
    end.

Notation "x <- m ;; k" := (bind m (fun x => k))
  (at level 100, m at next level, right associativity).
Notation "m ;;; k" := (bind m (fun _ => k))
  (at level 100, right associativity).

(** A call enters with a fresh frame and leaves it behind. *)
Definition call {A} (m : M A) (w : world) : (exception + A) * world :=
  let '(r, (w', _)) := m (w, empty_frame) in (r, w').

Module Httpx.

(** [httpx.post(url, headers=..., json=..., timeout=...)] *)
Definition post (u : string) (h : list (string * string)) (j : value)
    (t : Z) : M response :=
  fun '(w, f) =>
    let req := {| url := u; headers := h; json := j; timeout := t |} in
    (respond w req, ({| respond := respond w; sent := sent w ++ [req] |}, f)).

Definition is_success (r : response) : bool :=
  (200 <=? status_code r) && (status_code r <=? 299).

(** [response.raise_for_status()]: an [HTTPStatusError] for every
    status outside 200..299, nothing otherwise. *)
Definition raise_for_status (r : response) : M unit :=
  if is_success r then ret tt else raise (HTTPStatusError (status_message r)).

(** [response.json()] *)
Definition json_of (r : response) : M value :=
  match decoded r with
  | inl e => raise e
  | inr v => ret v
  end.

End Httpx.

(** Binding and reading the local variable [response]. *)
Definition bind_response (r : response) : M unit :=
  fun '(w, _) => (inr tt, (w, {| local_response := Some r |})).

Definition locals_response : M (option response) :=
  fun '(w, f) => (inr (local_response f), (w, f)).

(** ** The tool *)

Definition get_pandora_access_token : M string :=
  ret "<replace with test token>".

Definition CONTENT_TYPE_MAP : gmap string string :=
  <["ARTIST" := "AR"]> (<["STATION" := "SF"]> (<["ALBUM" := "AL"]>
  (<["TRACK" := "TR"]> (<["PODCAST" := "PC"]> ∅)))).

Definition PANDORA_URL : string :=
  "https://ce.pandora.com/api/v1/graphql/graphql".

(** The three constant pieces of the document, around its two holes. *)
Definition doc_head : string := "
        {
            search(types: [".

Definition doc_mid : string := "], query: " +:+ String Str.dquote EmptyString.

Definition doc_tail : string := String Str.dquote ", pagination: {limit: 20}) {
                items {
                    id
                    ... on Station {
                        name
                        art {
                            url(size: WIDTH_90)
                        }
                        description
                    }
                    ... on StationFactory {
                        name
                        art {
                            url(size: WIDTH_90)
                        }
                        exampleArtists { name }
                        description
                    }
                    ... on Track {
                        name
                        artist { name }
                        album { name }
                        url
                    }
                    ... on Podcast {
                        name
                        publisherName
                        url
                    }
                    ... on Album {
                        name
                        artist { name }
                        releaseDate
                        tracks { name }
                        trackCount
                        url
                    }
                    ... on Artist {
                        name
                        sortableName
                        url
                    }
                }
            }
        }
    ".

(** The f-string bound to [graphql_query]. *)
Definition graphql_query (pandora_type_id query : string) : string :=
  doc_head +:+ pandora_type_id +:+ doc_mid +:+ query +:+ doc_tail.

(** [graphql_query.replace('\n', ' ').strip()] *)
Definition flatten (doc : string) : string :=
  Str.strip (Str.replace Str.newline Str.space doc).

Definition data (pandora_type_id query : string) : value :=
  VDict [ ("operationName", VNone);
          ("variables", VDict []);
          ("query", VStr (flatten (graphql_query pandora_type_id query))) ].

Definition make_headers (token : string) : list (string * string) :=
  [ ("Authorization", "Bearer " +:+ token);
    ("Content-Type", "application/json") ].

Definition invalid_content_type (content_type : string) : value :=
  VDict [ ("error", VStr ("Invalid content_type: " +:+ content_type +:+ ".")) ].

(** The [except] clause: [response.text] if [response] is among the
    locals, else [None]. *)
Definition api_call_failed (e : exception) : M value :=
  r <- locals_response ;;
  ret (VDict [ ("error", VStr ("Pandora API call failed: " +:+ str_of e));
               ("response_text",
                 match r with
                 | Some response => VStr (text response)
                 | None => VNone
                 end) ]).

(** [not v] for the result of [dict.get]: [None] and the empty string
    are the false ones. *)
Definition not_ (v : option string) : bool :=
  match v with
  | None => true
  | Some s => String.eqb s EmptyString
  end.

Definition pandora_search_catalog (query content_type : string) : M value :=
  let pandora_type_id := CONTENT_TYPE_MAP !! Str.upper content_type in
  if not_ pandora_type_id then ret (invalid_content_type content_type)
  else
    let pandora_type_id := default EmptyString pandora_type_id in
    let data := data pandora_type_id query in
    token <- get_pandora_access_token ;;
    let headers := make_headers token in
    try_except
      (response <- Httpx.post PANDORA_URL headers data 10 ;;
       bind_response response ;;;
       Httpx.raise_for_status response ;;;
       Httpx.json_of response)
      api_call_failed.

(** ** What one invocation does

    The request the tool issues for a resolved type code, and the value
    it makes of the client's answer. *)

Definition the_request (pandora_type_id query : string) : request :=
  {| url := PANDORA_URL;
     headers := make_headers "<replace with test token>";
     json := data pandora_type_id query;
     timeout := 10 |}.

Definition failure (e : exception) (r : option response) : value :=
  VDict [ ("error", VStr ("Pandora API call failed: " +:+ str_of e));
          ("response_text",
            match r with Some r => VStr (text r) | None => VNone end) ].

Definition settle (o : exception + response) : value :=
  match o with
  | inl e => failure e None
  | inr r =>
      if Httpx.is_success r then
        match decoded r with
        | inl e => failure e (Some r)
        | inr v => v
        end
      else failure (HTTPStatusError (status_message r)) (Some r)
  end.

(** The outcomes of the HTTP call that count as a failure: the client
    raised, the status is outside 200..299, or the body does not
    decode. *)
Definition call_fails (o : exception + response) : Prop :=
  match o with
  | inl _ => True
  | inr r => Httpx.is_success r = false ∨ ∃ e, decoded r = inl e
  end.

(** The documented table of labels and provider codes. *)
Definition documented : list (string * string) :=
  [ ("ARTIST", "AR"); ("STATION", "SF"); ("ALBUM", "AL");
    ("TRACK", "TR"); ("PODCAST", "PC") ].

(** A world for the examples: the remote side answers [o] whatever
    the request, and nothing has been sent yet. *)
Definition answering (o : exception + response) : world :=
  {| respond := fun _ => o; sent := [] |}.

(** ** The document on the wire *)

Definition wire_document (pandora_type_id query : string) : string :=
  flatten (graphql_query pandora_type_id query).

(** The head and the tail of the document once flattened. *)
Definition flat_head : string :=
  Str.lstrip (Str.replace Str.newline Str.space doc_head).

Definition flat_tail : string :=
  Str.rstrip (Str.replace Str.newline Str.space doc_tail).

(** ** The lexical structure of a GraphQL document

    A scanner over the characters of a document that tells the text of
    the document proper from the bodies of its string literals and from
    its comments.  A string literal runs from a double quote to the next
    double quote that no backslash escapes, and holds no line
    terminator; a comment runs from a hash to the end of the line.  The
    template has no block string, and none is told apart here. *)

Module GraphQL.

Inductive mode : Type := Code | InString | Escaped | Comment.

Definition is_line_terminator (c : ascii) : bool :=
  Ascii.eqb c Str.newline || Ascii.eqb c Str.carriage_return.

(** One character: the mode after it and whether the character is
    part of the structure; [None] when a line terminator breaks a
    string literal. *)
Definition step (m : mode) (c : ascii) : option (mode * bool) :=
  match m with
  | Code =>
      if Ascii.eqb c Str.dquote then Some (InString, true)
      else if Ascii.eqb c Str.hash then Some (Comment, false)
      else Some (Code, true)
  | InString =>
      if Ascii.eqb c Str.dquote then Some (Code, true)
      else if Ascii.eqb c Str.backslash then Some (Escaped, false)
      else if is_line_terminator c then None
      else Some (InString, false)
  | Escaped =>
      if is_line_terminator c then None else Some (InString, false)
  | Comment =>
      if is_line_terminator c then Some (Code, true)
      else Some (Comment, false)
  end.

Fixpoint scan (m : mode) (s : string) : option (mode * string) :=
  match s with
  | EmptyString => Some (m, EmptyString)
  | String c s' =>
      match step m c with
      | None => None
      | Some (m', keep) =>
          match scan m' s' with
          | None => None
          | Some (mf, out) => Some (mf, if keep then String c out else out)
          end
      end
  end.

(** The structure of a document: its text without the bodies of the
    string literals and without the comments; [None] when a string
    literal is broken or left open. *)
Definition skeleton (doc : string) : option string :=
  match scan Code doc with
  | Some (Code, out) | Some (Comment, out) => Some out
  | _ => None
  end.

(** A text that, put between two double quotes, is the body of one
    string literal whatever it says: no double quote, no backslash,
    no carriage return (a newline does not reach the wire). *)
Definition plain (query : string) : bool :=
  negb (Str.contains Str.dquote query)
  && negb (Str.contains Str.backslash query)
  && negb (Str.contains Str.carriage_return query).

End GraphQL.

(** A query that closes the string literal and adds a second type
    filter and a second query argument. *)
Definition injected : string :=
  "x" +:+ String Str.dquote ", types: [TR], query: "
      +:+ String Str.dquote "y".

(** ** Answers of the remote side used in the examples *)

Definition server_error : response :=
  {| status_code := 500;
     text := "{" +:+ Str.quoted "message" +:+ ":"
               +:+ Str.quoted "server error" +:+ "}";
     decoded := inr (VDict [ ("message", VStr "server error") ]);
     status_message := "Server error '500 Internal Server Error'" |}.

Definition artist_json : value :=
  VDict [ ("data", VDict [ ("search", VDict [ ("items",
    VList [ VDict [ ("id", VStr "1"); ("name", VStr "Test Artist") ] ]) ]) ]) ].

Definition artist_found : response :=
  {| status_code := 200;
     text := "{" +:+ Str.quoted "data" +:+ ":{" +:+ Str.quoted "search"
               +:+ ":{" +:+ Str.quoted "items" +:+ ":[{" +:+ Str.quoted "id"
               +:+ ":" +:+ Str.quoted "1" +:+ "," +:+ Str.quoted "name"
               +:+ ":" +:+ Str.quoted "Test Artist" +:+ "}]}}}";
     decoded := inr artist_json;
     status_message := EmptyString |}.

Definition not_json : response :=
  {| status_code := 200;
     text := "<html>";
     decoded := inl (JSONDecodeError "Expecting value: line 1 column 1 (char 0)");
     status_message := EmptyString |}.

Definition timed_out : exception :=
  TimeoutException "The read operation timed out".

(** A query on two lines, with a space at its end. *)
Definition two_lines : string :=
  "space" +:+ String Str.newline "podcasts ".

(** ** Further notions used by the properties *)

(** [doc] is the document of the one request an invocation sends. *)
Definition sends_document (query content_type : string) (w : world)
    (doc : string) : Prop :=
  ∃ req,
    sent (snd (call (pandora_search_catalog query content_type) w))
      = sent w ++ [req]
    ∧ get "query" (json req) = Some (VStr doc).

(** A code point below 128; on text made of these [Str.upper] is
    [str.upper]. *)
Definition ascii_char (c : ascii) : bool :=
  (nat_of_ascii c <? 128)%nat.

(** A gateway's answer with no body at all. *)
Definition empty_reply : response :=
  {| status_code := 502;
     text := EmptyString;
     decoded := inl (JSONDecodeError "Expecting value: line 1 column 1 (char 0)");
     status_message := "Server error '502 Bad Gateway'" |}.

Definition ascii_upper_letter (c : ascii) : bool :=
  let n := nat_of_ascii c in (65 <=? n)%nat && (n <=? 90)%nat.

Definition ascii_letter (c : ascii) : bool :=
  ascii_upper_letter c || Str.islower c.

Fixpoint all_chars (p : ascii → bool) (s : string) : bool :=
  match s with
  | EmptyString => true
  | String c s' => p c && all_chars p s'
  end.

(** The scanner's modes inside a string literal. *)
Definition inside (m : GraphQL.mode) : bool :=
  match m with
  | GraphQL.InString | GraphQL.Escaped => true
  | GraphQL.Code | GraphQL.Comment => false
  end.

(** The bodies of the string literals of a text, read with
    [GraphQL.step] from mode [m]: the rest of the body under way (empty
    outside a literal) and the bodies of the literals that follow;
    [None] where [GraphQL.skeleton] is. *)
Fixpoint literal_bodies (m : GraphQL.mode) (s : string)
    : option (string * list string) :=
  match s with
  | EmptyString => if inside m then None else Some (EmptyString, [])
  | String c s' =>
      match GraphQL.step m c with
      | None => None
      | Some (m', _) =>
          match literal_bodies m' s' with
          | None => None
          | Some (cur, rest) =>
              match inside m, inside m' with
              | false, true => Some (EmptyString, cur :: rest)
              | true, true => Some (String c cur, rest)
              | true, false => Some (EmptyString, rest)
              | false, false => Some (cur, rest)
              end
          end
      end
  end.

(** The string literals of a document, in order, as written. *)
Definition string_literals (doc : string) : option (list string) :=
  match literal_bodies GraphQL.Code doc with
  | Some (_, bodies) => Some bodies
  | None => None
  end.

(** ** The mapping *)

Lemma CONTENT_TYPE_MAP_Some (k v : string) :
  CONTENT_TYPE_MAP !! k = Some v ↔ In (k, v) documented.
Proof.
  unfold CONTENT_TYPE_MAP, documented.
  rewrite !lookup_insert_Some, lookup_empty. simpl.
  split.
  - intros H.
    repeat (destruct H as [[-> ->] | [_ H]]; [tauto |]). discriminate.
  - intros H.
    repeat (destruct H as [[= <- <-] | H];
            [repeat (first [left; split; [reflexivity | reflexivity]
                           | right; split; [discriminate |]]) |]).
    contradiction.
Qed.

Lemma CONTENT_TYPE_MAP_truthy (k v : string) :
  CONTENT_TYPE_MAP !! k = Some v → not_ (Some v) = false.
Proof.
  rewrite CONTENT_TYPE_MAP_Some. unfold documented. simpl.
  intros H. repeat (destruct H as [[= <- <-] | H]; [reflexivity |]).
  contradiction.
Qed.

(** ** The two paths through the tool *)

Lemma search_invalid (query content_type : string) (w : world) :
  CONTENT_TYPE_MAP !! Str.upper content_type = None →
  call (pandora_search_catalog query content_type) w
    = (inr (invalid_content_type content_type), w).
Proof.
  intros H. unfold pandora_search_catalog. rewrite H. reflexivity.
Qed.

Lemma search_valid (query content_type code : string) (w : world) :
  CONTENT_TYPE_MAP !! Str.upper content_type = Some code →
  call (pandora_search_catalog query content_type) w
    = (inr (settle (respond w (the_request code query))),
       {| respond := respond w;
          sent := sent w ++ [the_request code query] |}).
Proof.
  intros H. unfold pandora_search_catalog.
  rewrite H, (CONTENT_TYPE_MAP_truthy _ _ H).
  change (default EmptyString (Some code)) with code.
  unfold call, get_pandora_access_token, try_except, bind, ret,
    Httpx.post, bind_response, Httpx.raise_for_status, Httpx.json_of,
    api_call_failed, locals_response, raise.
  fold (the_request code query).
  destruct (respond w (the_request code query)) as [e | r]; [reflexivity |].
  cbn [settle]. destruct (Httpx.is_success r); [| reflexivity].
  destruct (decoded r); reflexivity.
Qed.

(** ** Strings *)

#[local] Arguments String.append !_ _ / : simpl nomatch.

Lemma app_assoc (a b c : string) : (a +:+ b) +:+ c = a +:+ b +:+ c.
Proof. induction a as [| x a IH]; simpl; [reflexivity | now rewrite IH]. Qed.

Lemma replace_app (old new : ascii) (a b : string) :
  Str.replace old new (a +:+ b)
    = Str.replace old new a +:+ Str.replace old new b.
Proof. induction a as [| x a IH]; simpl; [reflexivity | now rewrite IH]. Qed.

Lemma contains_app (c : ascii) (a b : string) :
  Str.contains c (a +:+ b) = Str.contains c a || Str.contains c b.
Proof.
  induction a as [| x a IH]; simpl; [reflexivity |].
  rewrite IH. now rewrite orb_assoc.
Qed.

Lemma replace_removes (old new : ascii) (s : string) :
  old ≠ new → Str.contains old (Str.replace old new s) = false.
Proof.
  intros Hne. induction s as [| x s IH]; simpl; [reflexivity |].
  rewrite IH, orb_false_r.
  destruct (Ascii.eqb x old) eqn:E; [| exact E].
  apply Ascii.eqb_neq. congruence.
Qed.

Lemma replace_absent (old new : ascii) (s : string) :
  Str.contains old s = false → Str.replace old new s = s.
Proof.
  induction s as [| x s IH]; simpl; [reflexivity |].
  intros [E H]%orb_false_elim. now rewrite E, IH.
Qed.

Lemma lstrip_contains (c : ascii) (s : string) :
  Str.contains c s = false → Str.contains c (Str.lstrip s) = false.
Proof.
  induction s as [| x s IH]; simpl; [reflexivity |].
  intros H. destruct (Str.isspace x); [| exact H].
  apply IH. now apply orb_false_elim in H.
Qed.

Lemma rstrip_contains (c : ascii) (s : string) :
  Str.contains c s = false → Str.contains c (Str.rstrip s) = false.
Proof.
  induction s as [| x s IH]; simpl; [reflexivity |].
  intros [E H]%orb_false_elim. specialize (IH H).
  destruct (Str.rstrip s) as [| y r].
  - destruct (Str.isspace x); simpl; [reflexivity | now rewrite E].
  - simpl in *. now rewrite E, IH.
Qed.

Lemma lstrip_first (s : string) (c : ascii) :
  Str.first (Str.lstrip s) = Some c → Str.isspace c = false.
Proof.
  induction s as [| x s IH]; simpl; [discriminate |].
  destruct (Str.isspace x) eqn:E; [exact IH |].
  simpl. now intros [= <-].
Qed.

Lemma rstrip_first (s : string) (c : ascii) :
  Str.first (Str.rstrip s) = Some c → Str.first s = Some c.
Proof.
  destruct s as [| x s]; simpl; [discriminate |].
  destruct (Str.rstrip s); [destruct (Str.isspace x) |]; simpl;
    [discriminate | trivial | trivial].
Qed.

Lemma rstrip_last (s : string) (c : ascii) :
  Str.last (Str.rstrip s) = Some c → Str.isspace c = false.
Proof.
  induction s as [| x s IH]; simpl; [discriminate |].
  destruct (Str.rstrip s) as [| y r].
  - destruct (Str.isspace x) eqn:E; simpl; [discriminate |].
    now intros [= <-].
  - exact IH.
Qed.

Lemma lstrip_app (a b : string) :
  Str.lstrip a ≠ EmptyString → Str.lstrip (a +:+ b) = Str.lstrip a +:+ b.
Proof.
  induction a as [| x a IH]; simpl; [congruence |].
  destruct (Str.isspace x); [exact IH | reflexivity].
Qed.

Lemma rstrip_app (a b : string) :
  Str.rstrip b ≠ EmptyString →
  Str.rstrip (a +:+ b) = a +:+ Str.rstrip b
  ∧ Str.rstrip (a +:+ b) ≠ EmptyString.
Proof.
  intros Hb. induction a as [| x a [IH Hne]]; simpl; [tauto |].
  rewrite IH. destruct (a +:+ Str.rstrip b) eqn:E.
  - rewrite <- IH in E. contradiction.
  - split; [reflexivity | discriminate].
Qed.

Lemma last_app (a b : string) :
  b ≠ EmptyString → Str.last (a +:+ b) = Str.last b.
Proof.
  intros Hb. induction a as [| x a IH]; simpl; [reflexivity |].
  rewrite IH. destruct (a +:+ b) eqn:E; [| reflexivity].
  destruct a; simpl in E; [contradiction | discriminate].
Qed.

(** A stripped string holds no whitespace at either end. *)
Lemma strip_ends (s : string) (c : ascii) :
  Str.first (Str.strip s) = Some c ∨ Str.last (Str.strip s) = Some c →
  Str.isspace c = false.
Proof.
  unfold Str.strip. intros [H | H].
  - apply rstrip_first in H. now apply lstrip_first in H.
  - now apply rstrip_last in H.
Qed.

(** The flattened document, piece by piece: the two holes are filled
    with the type code and the query, their newlines turned to spaces. *)
Lemma wire_document_pieces (code query : string) :
  wire_document code query
    = flat_head +:+ Str.replace Str.newline Str.space code +:+ doc_mid
        +:+ Str.replace Str.newline Str.space query +:+ flat_tail.
Proof.
  unfold wire_document, flatten, graphql_query, Str.strip.
  rewrite !replace_app.
  rewrite lstrip_app by (vm_compute; discriminate).
  fold flat_head.
  change (Str.replace Str.newline Str.space doc_mid) with doc_mid.
  assert (Ht : Str.rstrip (Str.replace Str.newline Str.space doc_tail)
               ≠ EmptyString) by (vm_compute; discriminate).
  fold flat_tail.
  rewrite !(fun a b H => proj1 (rstrip_app a b H));
    repeat first [exact Ht | reflexivity | apply rstrip_app].
Qed.

(** ** The scanner *)

Lemma scan_app (m : GraphQL.mode) (a b : string) :
  GraphQL.scan m (a +:+ b)
    = match GraphQL.scan m a with
      | None => None
      | Some (m', out) =>
          match GraphQL.scan m' b with
          | None => None
          | Some (mf, out') => Some (mf, out +:+ out')
          end
      end.
Proof.
  revert m. induction a as [| x a IH]; intros m; simpl.
  - now destruct (GraphQL.scan m b) as [[mf out'] |].
  - destruct (GraphQL.step m x) as [[m' keep] |]; [| reflexivity].
    rewrite IH. destruct (GraphQL.scan m' a) as [[m1 o1] |]; [| reflexivity].
    destruct (GraphQL.scan m1 b) as [[mf o2] |]; [| reflexivity].
    now destruct keep.
Qed.

Lemma plain_cons (x : ascii) (query : string) :
  GraphQL.plain (String x query) = true →
  Ascii.eqb x Str.dquote = false ∧ Ascii.eqb x Str.backslash = false
  ∧ Ascii.eqb x Str.carriage_return = false ∧ GraphQL.plain query = true.
Proof.
  unfold GraphQL.plain. simpl. rewrite !negb_orb, !andb_true_iff, !negb_true_iff.
  tauto.
Qed.

Lemma step_plain (x : ascii) :
  Ascii.eqb x Str.dquote = false → Ascii.eqb x Str.backslash = false →
  Ascii.eqb x Str.carriage_return = false →
  GraphQL.step GraphQL.InString
      (if Ascii.eqb x Str.newline then Str.space else x)
    = Some (GraphQL.InString, false).
Proof.
  intros Hq Hb Hr. destruct (Ascii.eqb x Str.newline) eqn:Hn; [reflexivity |].
  unfold GraphQL.step, GraphQL.is_line_terminator. now rewrite Hq, Hb, Hn, Hr.
Qed.

(** Inside a string literal, a plain text is read to its end and none
    of it is structure. *)
Lemma scan_plain (query : string) :
  GraphQL.plain query = true →
  GraphQL.scan GraphQL.InString (Str.replace Str.newline Str.space query)
    = Some (GraphQL.InString, EmptyString).
Proof.
  induction query as [| x query IH]; [reflexivity |].
  intros (Hq & Hb & Hr & Hp)%plain_cons.
  cbn [Str.replace GraphQL.scan].
  now rewrite (step_plain x Hq Hb Hr), (IH Hp).
Qed.

Lemma skeleton_plain (code query : string) :
  (∃ label, In (label, code) documented) →
  GraphQL.plain query = true →
  GraphQL.skeleton (wire_document code query)
    = Some (wire_document code EmptyString).
Proof.
  intros [label Hc] Hp. rewrite !wire_document_pieces.
  assert (Hhead : GraphQL.scan GraphQL.Code
            (flat_head +:+ Str.replace Str.newline Str.space code +:+ doc_mid)
          = Some (GraphQL.InString,
                  flat_head +:+ Str.replace Str.newline Str.space code
                    +:+ doc_mid)).
  { unfold documented in Hc. simpl in Hc.
    repeat (destruct Hc as [[= <- <-] | Hc]; [vm_compute; reflexivity |]).
    contradiction. }
  assert (Htail : GraphQL.scan GraphQL.InString flat_tail
                  = Some (GraphQL.Code, flat_tail))
    by (vm_compute; reflexivity).
  assert (E : ∀ a b c d : string, a +:+ b +:+ c +:+ d = (a +:+ b +:+ c) +:+ d)
    by (intros; now rewrite !app_assoc).
  unfold GraphQL.skeleton.
  rewrite E, scan_app, Hhead, scan_app, (scan_plain _ Hp), Htail.
  cbn [Str.replace]. now rewrite E.
Qed.

(** ** Requests *)

Lemma sent_inv (query content_type : string) (w : world) (req : request) :
  sent (snd (call (pandora_search_catalog query content_type) w))
    = sent w ++ [req] →
  ∃ code, CONTENT_TYPE_MAP !! Str.upper content_type = Some code
          ∧ req = the_request code query.
Proof.
  destruct (CONTENT_TYPE_MAP !! Str.upper content_type) as [code |] eqn:E.
  - rewrite (search_valid _ _ _ _ E). simpl.
    intros [_ <-]%app_inj_tail. eauto.
  - rewrite (search_invalid _ _ _ E). simpl. intros H.
    apply (f_equal length) in H. rewrite length_app in H. simpl in H. lia.
Qed.

(** * Properties of the tool *)

(** C1. When the upper-cased content type is no key of the mapping, the
    tool returns exactly the dictionary with the single entry [error],
    whose text quotes the content type as it was given, and the world is
    left as it was: no request has been sent. *)
Theorem invalid_content_type_is_reported
    (query content_type : string) (w : world) :
  CONTENT_TYPE_MAP !! Str.upper content_type = None →
  call (pandora_search_catalog query content_type) w
    = (inr (VDict [ ("error",
              VStr ("Invalid content_type: " +:+ content_type +:+ ".")) ]),
       w).
Proof. apply search_invalid. Qed.

Lemma invalid_content_type_is_reported_witness :
  (CONTENT_TYPE_MAP !! Str.upper "PLAYLIST" = None
   ∧ call (pandora_search_catalog "jazz" "PLAYLIST") (answering (inr artist_found))
     = (inr (VDict [ ("error", VStr "Invalid content_type: PLAYLIST.") ]),
        answering (inr artist_found)))
  ∧ (CONTENT_TYPE_MAP !! Str.upper EmptyString = None
     ∧ call (pandora_search_catalog "jazz" EmptyString) (answering (inr artist_found))
       = (inr (VDict [ ("error", VStr "Invalid content_type: .") ]),
          answering (inr artist_found)))
  ∧ (CONTENT_TYPE_MAP !! Str.upper "artist " = None
     ∧ call (pandora_search_catalog "jazz" "artist ") (answering (inr artist_found))
       = (inr (VDict [ ("error", VStr "Invalid content_type: artist .") ]),
          answering (inr artist_found))).
Proof.
  split; [| split]; (split; [vm_compute; reflexivity |]).
  - apply (invalid_content_type_is_reported "jazz" "PLAYLIST").
    vm_compute; reflexivity.
  - apply (invalid_content_type_is_reported "jazz" EmptyString).
    vm_compute; reflexivity.
  - apply (invalid_content_type_is_reported "jazz" "artist ").
    vm_compute; reflexivity.
Defined.

(** C2. A content type that upper-cases to one of the five labels is
    resolved to the documented provider code and exactly one request,
    built with that code, is added to the log; and a request is sent
    only for such a content type. *)
Theorem valid_content_type_one_call
    (query content_type : string) (w : world) :
  let w' := snd (call (pandora_search_catalog query content_type) w) in
  (∀ label code, In (label, code) documented →
     Str.upper content_type = label →
     CONTENT_TYPE_MAP !! Str.upper content_type = Some code
     ∧ sent w' = sent w ++ [the_request code query])
  ∧ (sent w' ≠ sent w →
     ∃ code, In (Str.upper content_type, code) documented).
Proof.
  intros w'. split.
  - intros label code Hin <-. apply CONTENT_TYPE_MAP_Some in Hin.
    split; [exact Hin |]. unfold w'. now rewrite (search_valid _ _ _ _ Hin).
  - unfold w'.
    destruct (CONTENT_TYPE_MAP !! Str.upper content_type) as [code |] eqn:E.
    + intros _. exists code. now apply CONTENT_TYPE_MAP_Some.
    + rewrite (search_invalid _ _ _ E). simpl. congruence.
Qed.

Lemma valid_content_type_one_call_witness :
  In ("STATION", "SF") documented
  ∧ Str.upper "sTaTion" = "STATION"
  ∧ CONTENT_TYPE_MAP !! Str.upper "sTaTion" = Some "SF"
  ∧ sent (snd (call (pandora_search_catalog "jazz" "sTaTion")
                 (answering (inr artist_found))))
    = [the_request "SF" "jazz"].
Proof.
  assert (Hin : In ("STATION", "SF") documented) by (simpl; tauto).
  assert (Hup : Str.upper "sTaTion" = "STATION") by reflexivity.
  split; [exact Hin |]. split; [exact Hup |].
  exact (proj1 (valid_content_type_one_call "jazz" "sTaTion"
                  (answering (inr artist_found))) "STATION" "SF" Hin Hup).
Defined.

(** C3. With a valid content type, when the HTTP call fails the tool
    returns the error dictionary: the message names the cause, and
    [response_text] is the raw body when a response was received (a
    status outside 200..299, or a body that does not decode) and [None]
    when the client raised before any response. *)
Theorem api_failure_is_reported
    (query content_type code : string) (w : world) :
  CONTENT_TYPE_MAP !! Str.upper content_type = Some code →
  let o := respond w (the_request code query) in
  let result := fst (call (pandora_search_catalog query content_type) w) in
  (∀ e, o = inl e →
     result = inr (VDict [
       ("error", VStr ("Pandora API call failed: " +:+ str_of e));
       ("response_text", VNone) ]))
  ∧ (∀ r, o = inr r → Httpx.is_success r = false →
     result = inr (VDict [
       ("error", VStr ("Pandora API call failed: " +:+ status_message r));
       ("response_text", VStr (text r)) ]))
  ∧ (∀ r e, o = inr r → Httpx.is_success r = true → decoded r = inl e →
     result = inr (VDict [
       ("error", VStr ("Pandora API call failed: " +:+ str_of e));
       ("response_text", VStr (text r)) ])).
Proof.
  intros H o result. unfold result. rewrite (search_valid _ _ _ _ H).
  fold o. cbn [fst]. repeat split.
  - now intros e ->.
  - intros r -> Hs. cbn [settle]. now rewrite Hs.
  - intros r e -> Hs Hd. cbn [settle]. now rewrite Hs, Hd.
Qed.

Lemma api_failure_is_reported_witness :
  CONTENT_TYPE_MAP !! Str.upper "artist" = Some "AR"
  ∧ fst (call (pandora_search_catalog "jazz" "artist")
           (answering (inl timed_out)))
    = inr (VDict [
        ("error", VStr "Pandora API call failed: The read operation timed out");
        ("response_text", VNone) ])
  ∧ Httpx.is_success server_error = false
  ∧ fst (call (pandora_search_catalog "jazz" "artist")
           (answering (inr server_error)))
    = inr (VDict [
        ("error", VStr "Pandora API call failed: Server error '500 Internal Server Error'");
        ("response_text", VStr (text server_error)) ])
  ∧ fst (call (pandora_search_catalog "jazz" "artist")
           (answering (inr not_json)))
    = inr (VDict [
        ("error", VStr "Pandora API call failed: Expecting value: line 1 column 1 (char 0)");
        ("response_text", VStr "<html>") ]).
Proof.
  assert (H : CONTENT_TYPE_MAP !! Str.upper "artist" = Some "AR")
    by (vm_compute; reflexivity).
  split; [exact H |]. split; [| split; [reflexivity | split]].
  - exact (proj1 (api_failure_is_reported "jazz" "artist" "AR"
                    (answering (inl timed_out)) H) timed_out eq_refl).
  - exact (proj1 (proj2 (api_failure_is_reported "jazz" "artist" "AR"
                    (answering (inr server_error)) H))
             server_error eq_refl eq_refl).
  - exact (proj2 (proj2 (api_failure_is_reported "jazz" "artist" "AR"
                    (answering (inr not_json)) H))
             not_json _ eq_refl eq_refl eq_refl).
Defined.

(** C5. With a valid content type, when the response has a status in
    200..299 and its body decodes, the tool returns the decoded value
    itself. *)
Theorem success_returns_decoded_json
    (query content_type code : string) (w : world) (r : response) (v : value) :
  CONTENT_TYPE_MAP !! Str.upper content_type = Some code →
  respond w (the_request code query) = inr r →
  Httpx.is_success r = true →
  decoded r = inr v →
  fst (call (pandora_search_catalog query content_type) w) = inr v.
Proof.
  intros H Hr Hs Hd. rewrite (search_valid _ _ _ _ H), Hr.
  cbn [fst settle]. now rewrite Hs, Hd.
Qed.

Lemma success_returns_decoded_json_witness :
  CONTENT_TYPE_MAP !! Str.upper "ARTIST" = Some "AR"
  ∧ Httpx.is_success artist_found = true
  ∧ fst (call (pandora_search_catalog "Test Artist" "ARTIST")
           (answering (inr artist_found)))
    = inr (VDict [ ("data", VDict [ ("search", VDict [ ("items",
        VList [ VDict [ ("id", VStr "1");
                        ("name", VStr "Test Artist") ] ]) ]) ]) ]).
Proof.
  assert (H : CONTENT_TYPE_MAP !! Str.upper "ARTIST" = Some "AR")
    by (vm_compute; reflexivity).
  split; [exact H |]. split; [reflexivity |].
  exact (success_returns_decoded_json "Test Artist" "ARTIST" "AR"
           (answering (inr artist_found)) artist_found artist_json
           H eq_refl eq_refl eq_refl).
Defined.

(** C4, as the code has it. The query is put between the two double
    quotes of the template as it is, nothing escaped. For a query that
    holds no double quote, no backslash and no carriage return, the
    document sent has the structure of the template: its skeleton is the
    document of the empty query, whatever the query says. *)
Theorem plain_query_keeps_structure
    (query content_type code : string) (w : world) :
  CONTENT_TYPE_MAP !! Str.upper content_type = Some code →
  GraphQL.plain query = true →
  ∃ req doc,
    sent (snd (call (pandora_search_catalog query content_type) w))
      = sent w ++ [req]
    ∧ get "query" (json req) = Some (VStr doc)
    ∧ GraphQL.skeleton doc = Some (wire_document code EmptyString).
Proof.
  intros H Hp. exists (the_request code query), (wire_document code query).
  rewrite (search_valid _ _ _ _ H). repeat split.
  apply skeleton_plain; [| exact Hp].
  exists (Str.upper content_type). now apply CONTENT_TYPE_MAP_Some.
Qed.

Lemma plain_query_keeps_structure_witness :
  CONTENT_TYPE_MAP !! Str.upper "track" = Some "TR"
  ∧ GraphQL.plain "don't stop #1" = true
  ∧ ∃ req doc,
      sent (snd (call (pandora_search_catalog "don't stop #1" "track")
                   (answering (inr artist_found))))
        = [req]
      ∧ get "query" (json req) = Some (VStr doc)
      ∧ GraphQL.skeleton doc = Some (wire_document "TR" EmptyString).
Proof.
  assert (H : CONTENT_TYPE_MAP !! Str.upper "track" = Some "TR")
    by (vm_compute; reflexivity).
  split; [exact H |]. split; [reflexivity |].
  exact (plain_query_keeps_structure "don't stop #1" "track" "TR"
           (answering (inr artist_found)) H eq_refl).
Defined.

(** C4, as the claim states it, fails: a query with a double quote ends
    the string literal early, and what follows it becomes structure.
    The document sent for [injected] carries a second type filter and a
    second query argument, which the template does not have. *)
Lemma quoted_query_alters_structure :
  ∃ req doc,
    sent (snd (call (pandora_search_catalog injected "ARTIST")
                 (answering (inr artist_found))))
      = [req]
    ∧ get "query" (json req) = Some (VStr doc)
    ∧ GraphQL.skeleton doc
      = Some (flat_head +:+ "AR" +:+ doc_mid
                +:+ String Str.dquote ", types: [TR], query: "
                +:+ String Str.dquote flat_tail)
    ∧ GraphQL.skeleton doc ≠ Some (wire_document "AR" EmptyString).
Proof.
  exists (the_request "AR" injected), (wire_document "AR" injected).
  split; [vm_compute; reflexivity |].
  split; [reflexivity |].
  split; [vm_compute; reflexivity | vm_compute; discriminate].
Qed.

(** C6. The document of every request sent holds no newline and has no
    whitespace at either end: it is the template with each newline
    turned into one space, stripped. *)
Theorem wire_document_flat
    (query content_type : string) (w : world) (req : request) :
  sent (snd (call (pandora_search_catalog query content_type) w))
    = sent w ++ [req] →
  ∃ doc,
    get "query" (json req) = Some (VStr doc)
    ∧ Str.contains Str.newline doc = false
    ∧ (∀ c, Str.first doc = Some c ∨ Str.last doc = Some c →
            Str.isspace c = false)
    ∧ (∃ code,
         CONTENT_TYPE_MAP !! Str.upper content_type = Some code
         ∧ doc = Str.strip (Str.replace Str.newline Str.space
                              (graphql_query code query))
         ∧ doc = flat_head +:+ code +:+ doc_mid
                   +:+ Str.replace Str.newline Str.space query
                   +:+ flat_tail).
Proof.
  intros (code & H & ->)%sent_inv.
  exists (wire_document code query). split; [reflexivity |].
  split; [| split].
  - unfold wire_document, flatten, Str.strip.
    apply rstrip_contains, lstrip_contains, replace_removes. discriminate.
  - intros c. apply strip_ends.
  - exists code. split; [exact H |]. split; [reflexivity |].
    rewrite wire_document_pieces. f_equal. f_equal.
    apply replace_absent.
    apply CONTENT_TYPE_MAP_Some in H. unfold documented in H. simpl in H.
    repeat (destruct H as [[= _ <-] | H]; [reflexivity |]).
    contradiction.
Qed.

Lemma wire_document_flat_witness :
  sent (snd (call (pandora_search_catalog two_lines "podcast")
               (answering (inr artist_found))))
    = [] ++ [the_request "PC" two_lines]
  ∧ ∃ doc,
      get "query" (json (the_request "PC" two_lines)) = Some (VStr doc)
      ∧ Str.contains Str.newline doc = false
      ∧ (∀ c, Str.first doc = Some c ∨ Str.last doc = Some c →
              Str.isspace c = false)
      ∧ (∃ code,
           CONTENT_TYPE_MAP !! Str.upper "podcast" = Some code
           ∧ doc = Str.strip (Str.replace Str.newline Str.space
                                (graphql_query code two_lines))
           ∧ doc = flat_head +:+ code +:+ doc_mid
                     +:+ Str.replace Str.newline Str.space two_lines
                     +:+ flat_tail).
Proof.
  assert (H : sent (snd (call (pandora_search_catalog two_lines "podcast")
                           (answering (inr artist_found))))
              = [] ++ [the_request "PC" two_lines])
    by (vm_compute; reflexivity).
  split; [exact H |].
  exact (wire_document_flat two_lines "podcast"
           (answering (inr artist_found)) _ H).
Defined.

(** C7. The body of every request sent is the dictionary with the three
    entries [operationName], [None]; [variables], the empty dictionary;
    and [query], the flattened document: the f-string with each newline
    replaced by a space, then stripped, so that it holds no newline and
    no whitespace at either end. *)
Theorem envelope_shape
    (query content_type : string) (w : world) (req : request) :
  sent (snd (call (pandora_search_catalog query content_type) w))
    = sent w ++ [req] →
  ∃ code doc,
    CONTENT_TYPE_MAP !! Str.upper content_type = Some code
    ∧ json req
      = VDict [ ("operationName", VNone);
                ("variables", VDict []);
                ("query", VStr doc) ]
    ∧ doc = Str.strip (Str.replace Str.newline Str.space
              (doc_head +:+ code +:+ doc_mid +:+ query +:+ doc_tail))
    ∧ Str.contains Str.newline doc = false
    ∧ (∀ c, Str.first doc = Some c ∨ Str.last doc = Some c →
            Str.isspace c = false).
Proof.
  intros (code & H & ->)%sent_inv.
  exists code, (wire_document code query).
  split; [exact H |]. split; [reflexivity |]. split; [reflexivity |].
  unfold wire_document, flatten. split.
  - unfold Str.strip.
    apply rstrip_contains, lstrip_contains, replace_removes. discriminate.
  - intros c. apply strip_ends.
Qed.

Lemma envelope_shape_witness :
  sent (snd (call (pandora_search_catalog two_lines "Album")
               (answering (inl timed_out))))
    = [] ++ [the_request "AL" two_lines]
  ∧ ∃ code doc,
      CONTENT_TYPE_MAP !! Str.upper "Album" = Some code
      ∧ json (the_request "AL" two_lines)
        = VDict [ ("operationName", VNone);
                  ("variables", VDict []);
                  ("query", VStr doc) ]
      ∧ doc = Str.strip (Str.replace Str.newline Str.space
                (doc_head +:+ code +:+ doc_mid +:+ two_lines +:+ doc_tail))
      ∧ Str.contains Str.newline doc = false
      ∧ (∀ c, Str.first doc = Some c ∨ Str.last doc = Some c →
              Str.isspace c = false).
Proof.
  assert (H : sent (snd (call (pandora_search_catalog two_lines "Album")
                           (answering (inl timed_out))))
              = [] ++ [the_request "AL" two_lines])
    by (vm_compute; reflexivity).
  split; [exact H |].
  exact (envelope_shape two_lines "Album" (answering (inl timed_out)) _ H).
Defined.

(** C8. For a valid content type the document sent is the template:
    the three constant pieces around the resolved type code and the
    query as given, then flattened. For the query [space podcasts] and
    the content type [PODCAST] the code is [PC] and the document opens
    with the search for that code and that text. *)
Theorem document_is_template :
  (∀ (query content_type code : string) (w : world),
     CONTENT_TYPE_MAP !! Str.upper content_type = Some code →
     ∃ req,
       sent (snd (call (pandora_search_catalog query content_type) w))
         = sent w ++ [req]
       ∧ get "query" (json req)
         = Some (VStr (Str.strip (Str.replace Str.newline Str.space
             (doc_head +:+ code +:+ doc_mid +:+ query +:+ doc_tail)))))
  ∧ CONTENT_TYPE_MAP !! Str.upper "PODCAST" = Some "PC"
  ∧ (∀ w : world,
       ∃ req doc,
         sent (snd (call (pandora_search_catalog "space podcasts" "PODCAST") w))
           = sent w ++ [req]
         ∧ get "query" (json req) = Some (VStr doc)
         ∧ String.prefix
             ("{             search(types: [PC], query: "
                +:+ Str.quoted "space podcasts"
                +:+ ", pagination: {limit: 20}) {") doc = true).
Proof.
  split; [| split].
  - intros query content_type code w H. exists (the_request code query).
    now rewrite (search_valid _ _ _ _ H).
  - vm_compute; reflexivity.
  - intros w. exists (the_request "PC" "space podcasts"),
      (wire_document "PC" "space podcasts").
    rewrite (search_valid _ _ "PC" _) by (vm_compute; reflexivity).
    split; [reflexivity |]. split; [reflexivity |]. vm_compute; reflexivity.
Qed.

Lemma document_is_template_witness :
  CONTENT_TYPE_MAP !! Str.upper "Track" = Some "TR"
  ∧ ∃ req,
      sent (snd (call (pandora_search_catalog "blue in green" "Track")
                   (answering (inr artist_found))))
        = [req]
      ∧ get "query" (json req)
        = Some (VStr (Str.strip (Str.replace Str.newline Str.space
            (doc_head +:+ "TR" +:+ doc_mid +:+ "blue in green" +:+ doc_tail)))).
Proof.
  assert (H : CONTENT_TYPE_MAP !! Str.upper "Track" = Some "TR")
    by (vm_compute; reflexivity).
  split; [exact H |].
  exact (proj1 document_is_template "blue in green" "Track" "TR"
           (answering (inr artist_found)) H).
Defined.

(** C9. Whatever the query, the content type and the answer of the
    remote side, an invocation ends with a value and no exception
    leaves it: the value is the decoded body of a response, or the
    dictionary of an invalid content type, or the dictionary of a failed
    call, whose [response_text] is [None] or a text. *)
Theorem search_always_returns (query content_type : string) (w : world) :
  ∃ v w',
    call (pandora_search_catalog query content_type) w = (inr v, w')
    ∧ ((∃ code r,
          CONTENT_TYPE_MAP !! Str.upper content_type = Some code
          ∧ respond w (the_request code query) = inr r
          ∧ decoded r = inr v)
       ∨ (∃ msg, v = VDict [ ("error", VStr msg) ])
       ∨ (∃ msg t,
            v = VDict [ ("error", VStr msg); ("response_text", t) ]
            ∧ (t = VNone ∨ ∃ body, t = VStr body))).
Proof.
  destruct (CONTENT_TYPE_MAP !! Str.upper content_type) as [code |] eqn:E.
  - rewrite (search_valid _ _ _ _ E). eexists _, _. split; [reflexivity |].
    destruct (respond w (the_request code query)) as [e | r] eqn:Ho.
    + right; right. eexists _, _. split; [reflexivity | now left].
    + cbn [settle]. destruct (Httpx.is_success r).
      * destruct (decoded r) as [e | v] eqn:Hd.
        -- right; right. eexists _, _. split; [reflexivity | right; eauto].
        -- left. eauto.
      * right; right. eexists _, _. split; [reflexivity | right; eauto].
  - rewrite (search_invalid _ _ _ E). eexists _, _. split; [reflexivity |].
    right; left. eexists. reflexivity.
Qed.

(** C10. The two error dictionaries differ in their keys: the one of an
    invalid content type has the single key [error] and no
    [response_text]; the one of a failed call has the two keys [error]
    and [response_text]. *)
Theorem error_shapes_distinct (query content_type : string) (w : world) :
  let result := fst (call (pandora_search_catalog query content_type) w) in
  (CONTENT_TYPE_MAP !! Str.upper content_type = None →
     ∃ v, result = inr v
          ∧ keys v = Some ["error"]
          ∧ get "response_text" v = None)
  ∧ (∀ code,
       CONTENT_TYPE_MAP !! Str.upper content_type = Some code →
       call_fails (respond w (the_request code query)) →
       ∃ v, result = inr v
            ∧ keys v = Some ["error"; "response_text"]
            ∧ ∃ t, get "response_text" v = Some t).
Proof.
  intros result. unfold result. split.
  - intros E. rewrite (search_invalid _ _ _ E). eexists. now cbn.
  - intros code E Hf. rewrite (search_valid _ _ _ _ E). cbn [fst].
    destruct (respond w (the_request code query)) as [e | r].
    + eexists. split; [reflexivity |]. split; [reflexivity | cbn; eauto].
    + cbn [settle]. destruct Hf as [-> | [e ->]].
      * eexists. split; [reflexivity |]. split; [reflexivity | cbn; eauto].
      * destruct (Httpx.is_success r);
          (eexists; split; [reflexivity |]; split; [reflexivity | cbn; eauto]).
Qed.

Lemma error_shapes_distinct_witness :
  (CONTENT_TYPE_MAP !! Str.upper "PLAYLIST" = None
   ∧ ∃ v, fst (call (pandora_search_catalog "jazz" "PLAYLIST")
                 (answering (inr server_error))) = inr v
          ∧ keys v = Some ["error"]
          ∧ get "response_text" v = None)
  ∧ (CONTENT_TYPE_MAP !! Str.upper "STATION" = Some "SF"
     ∧ call_fails (inr server_error)
     ∧ ∃ v, fst (call (pandora_search_catalog "jazz" "STATION")
                   (answering (inr server_error))) = inr v
            ∧ keys v = Some ["error"; "response_text"]
            ∧ ∃ t, get "response_text" v = Some t).
Proof.
  assert (Hn : CONTENT_TYPE_MAP !! Str.upper "PLAYLIST" = None)
    by (vm_compute; reflexivity).
  assert (Hs : CONTENT_TYPE_MAP !! Str.upper "STATION" = Some "SF")
    by (vm_compute; reflexivity).
  assert (Hf : call_fails (inr server_error)) by (left; reflexivity).
  split.
  - split; [exact Hn |].
    exact (proj1 (error_shapes_distinct "jazz" "PLAYLIST"
                    (answering (inr server_error))) Hn).
  - split; [exact Hs |]. split; [exact Hf |].
    exact (proj2 (error_shapes_distinct "jazz" "STATION"
                    (answering (inr server_error))) "SF" Hs Hf).
Defined.

(** * Further properties of the tool *)

(** ** Letters and cases *)

Lemma upper_char_letter (c : ascii) :
  ascii_upper_letter (Str.upper_char c) = true → ascii_letter c = true.
Proof.
  destruct c as [b0 b1 b2 b3 b4 b5 b6 b7].
  destruct b0, b1, b2, b3, b4, b5, b6, b7; vm_compute; trivial.
Qed.

Lemma upper_letters (s : string) :
  all_chars ascii_upper_letter (Str.upper s) = true →
  all_chars ascii_letter s = true.
Proof.
  induction s as [| c s IH]; [reflexivity |].
  cbn [Str.upper all_chars]. intros [Hc Hs]%andb_true_iff.
  now rewrite (upper_char_letter c Hc), (IH Hs).
Qed.

Lemma keys_upper_letters (k v : string) :
  CONTENT_TYPE_MAP !! k = Some v → all_chars ascii_upper_letter k = true.
Proof.
  rewrite CONTENT_TYPE_MAP_Some. unfold documented. simpl.
  intros H. repeat (destruct H as [[= <- <-] | H]; [reflexivity |]).
  contradiction.
Qed.

(** ** Stripping twice *)

Lemma lstrip_fixed (s : string) :
  (∀ c, Str.first s = Some c → Str.isspace c = false) → Str.lstrip s = s.
Proof.
  destruct s as [| x s]; [reflexivity |]. simpl. intros H.
  now rewrite (H x eq_refl).
Qed.

Lemma rstrip_idempotent (s : string) :
  Str.rstrip (Str.rstrip s) = Str.rstrip s.
Proof.
  induction s as [| x s IH]; [reflexivity |]. simpl.
  destruct (Str.rstrip s) as [| y r] eqn:E.
  - destruct (Str.isspace x) eqn:Hx; simpl; [reflexivity | now rewrite Hx].
  - simpl in *. now rewrite IH.
Qed.

Lemma strip_idempotent (s : string) :
  Str.strip (Str.strip s) = Str.strip s.
Proof.
  unfold Str.strip.
  rewrite (lstrip_fixed (Str.rstrip (Str.lstrip s))).
  - apply rstrip_idempotent.
  - intros c H. apply rstrip_first in H. now apply lstrip_first in H.
Qed.

(** ** Scanning the document of any query *)

Lemma app_nil_r (s : string) : s +:+ EmptyString = s.
Proof. induction s as [| x s IH]; simpl; [reflexivity | now rewrite IH]. Qed.

Lemma scan_head (code : string) :
  (∃ label, In (label, code) documented) →
  GraphQL.scan GraphQL.Code
      (flat_head +:+ Str.replace Str.newline Str.space code +:+ doc_mid)
    = Some (GraphQL.InString,
            flat_head +:+ Str.replace Str.newline Str.space code +:+ doc_mid).
Proof.
  intros [label Hc]. unfold documented in Hc. simpl in Hc.
  repeat (destruct Hc as [[= <- <-] | Hc]; [vm_compute; reflexivity |]).
  contradiction.
Qed.

(** The scan of a document sent is the scan of the query and the tail,
    begun inside the string literal the template opens. *)
Lemma scan_wire_document (code query : string) :
  (∃ label, In (label, code) documented) →
  GraphQL.scan GraphQL.Code (wire_document code query)
    = match GraphQL.scan GraphQL.InString
              (Str.replace Str.newline Str.space query +:+ flat_tail) with
      | None => None
      | Some (mf, out) =>
          Some (mf, (flat_head +:+ Str.replace Str.newline Str.space code
                       +:+ doc_mid) +:+ out)
      end.
Proof.
  intros Hc. rewrite wire_document_pieces.
  assert (E : ∀ a b c d : string, a +:+ b +:+ c +:+ d = (a +:+ b +:+ c) +:+ d)
    by (intros; now rewrite !app_assoc).
  now rewrite E, scan_app, (scan_head code Hc).
Qed.

Lemma scan_code_plain (b : string) :
  GraphQL.plain b = true → Str.contains Str.hash b = false →
  GraphQL.scan GraphQL.Code (Str.replace Str.newline Str.space b)
    = Some (GraphQL.Code, Str.replace Str.newline Str.space b).
Proof.
  induction b as [| x b IH]; [reflexivity |].
  intros (Hq & _ & _ & Hp)%plain_cons [Hh Hb]%orb_false_elim.
  cbn [Str.replace GraphQL.scan].
  assert (Hs : GraphQL.step GraphQL.Code
                 (if Ascii.eqb x Str.newline then Str.space else x)
               = Some (GraphQL.Code, true)).
  { destruct (Ascii.eqb x Str.newline); [reflexivity |].
    unfold GraphQL.step. now rewrite Hq, Hh. }
  now rewrite Hs, (IH Hp Hb).
Qed.

(** ** Reading the literals back *)

Lemma literal_bodies_head (code rest : string) :
  (∃ label, In (label, code) documented) →
  literal_bodies GraphQL.Code
      ((flat_head +:+ Str.replace Str.newline Str.space code +:+ doc_mid)
         +:+ rest)
    = match literal_bodies GraphQL.InString rest with
      | None => None
      | Some (cur, bodies) => Some (EmptyString, cur :: bodies)
      end.
Proof.
  intros [label Hc]. unfold documented in Hc. simpl in Hc.
  remember (flat_head +:+ Str.replace Str.newline Str.space code +:+ doc_mid)
    as p eqn:Hp.
  repeat (destruct Hc as [[= <- <-] | Hc];
          [vm_compute in Hp; subst p; cbn;
           now destruct (literal_bodies GraphQL.InString rest)
                 as [[cur bodies] |] |]).
  contradiction.
Qed.

Lemma literal_bodies_plain (query rest : string) :
  GraphQL.plain query = true →
  literal_bodies GraphQL.InString
      (Str.replace Str.newline Str.space query +:+ rest)
    = match literal_bodies GraphQL.InString rest with
      | None => None
      | Some (cur, bodies) =>
          Some (Str.replace Str.newline Str.space query +:+ cur, bodies)
      end.
Proof.
  induction query as [| x query IH].
  - intros _. cbn. now destruct (literal_bodies GraphQL.InString rest)
      as [[cur bodies] |].
  - intros (Hq & Hb & Hr & Hp)%plain_cons.
    cbn [Str.replace String.append literal_bodies].
    rewrite (step_plain x Hq Hb Hr), (IH Hp).
    now destruct (literal_bodies GraphQL.InString rest) as [[cur bodies] |].
Qed.

Lemma sends_wire_document (query content_type code : string) (w : world) :
  CONTENT_TYPE_MAP !! Str.upper content_type = Some code →
  sends_document query content_type w (wire_document code query).
Proof.
  intros H. exists (the_request code query).
  now rewrite (search_valid _ _ _ _ H).
Qed.

Lemma documented_code (k code : string) :
  CONTENT_TYPE_MAP !! k = Some code → ∃ label, In (label, code) documented.
Proof. intros H. exists k. now apply CONTENT_TYPE_MAP_Some. Qed.

Lemma skeleton_open (code query : string) (out : string) :
  (∃ label, In (label, code) documented) →
  GraphQL.scan GraphQL.InString
      (Str.replace Str.newline Str.space query +:+ flat_tail)
    = Some (GraphQL.InString, out) →
  GraphQL.skeleton (wire_document code query) = None.
Proof.
  intros Hc Hs. unfold GraphQL.skeleton.
  now rewrite (scan_wire_document code query Hc), Hs.
Qed.

(** X1. A valid content type is read without regard to letter case: two
    content types with the same upper-casing, one of them valid, give
    the same result and the same requests. *)
Theorem content_type_case_insensitive
    (query content_type1 content_type2 code : string) (w : world) :
  Str.upper content_type1 = Str.upper content_type2 →
  CONTENT_TYPE_MAP !! Str.upper content_type1 = Some code →
  call (pandora_search_catalog query content_type1) w
    = call (pandora_search_catalog query content_type2) w.
Proof.
  intros Hu H. rewrite (search_valid _ _ _ _ H).
  rewrite Hu in H. now rewrite (search_valid _ _ _ _ H).
Qed.

Lemma content_type_case_insensitive_witness :
  Str.upper "podcast" = Str.upper "PodCast"
  ∧ CONTENT_TYPE_MAP !! Str.upper "podcast" = Some "PC"
  ∧ call (pandora_search_catalog "space" "podcast") (answering (inr artist_found))
    = call (pandora_search_catalog "space" "PodCast") (answering (inr artist_found)).
Proof.
  assert (Hu : Str.upper "podcast" = Str.upper "PodCast") by reflexivity.
  assert (H : CONTENT_TYPE_MAP !! Str.upper "podcast" = Some "PC")
    by (vm_compute; reflexivity).
  split; [exact Hu |]. split; [exact H |].
  exact (content_type_case_insensitive "space" "podcast" "PodCast" "PC"
           (answering (inr artist_found)) Hu H).
Defined.

(** X2. The content type is not trimmed or otherwise cleaned: an ASCII
    content type that holds a character other than a letter (a space, a
    digit, a sign) is rejected with the error dictionary, and nothing is
    sent. *)
Theorem ascii_non_letter_content_type_rejected
    (query content_type : string) (w : world) :
  all_chars ascii_char content_type = true →
  all_chars ascii_letter content_type = false →
  call (pandora_search_catalog query content_type) w
    = (inr (VDict [ ("error",
              VStr ("Invalid content_type: " +:+ content_type +:+ ".")) ]),
       w).
Proof.
  intros _ Hl. apply search_invalid.
  destruct (CONTENT_TYPE_MAP !! Str.upper content_type) as [code |] eqn:E;
    [| reflexivity].
  apply keys_upper_letters, upper_letters in E. congruence.
Qed.

Lemma ascii_non_letter_content_type_rejected_witness :
  all_chars ascii_char " ARTIST" = true
  ∧ all_chars ascii_letter " ARTIST" = false
  ∧ call (pandora_search_catalog "jazz" " ARTIST") (answering (inr artist_found))
    = (inr (VDict [ ("error", VStr "Invalid content_type:  ARTIST.") ]),
       answering (inr artist_found)).
Proof.
  assert (Ha : all_chars ascii_char " ARTIST" = true) by reflexivity.
  assert (H : all_chars ascii_letter " ARTIST" = false) by reflexivity.
  split; [exact Ha |]. split; [exact H |].
  exact (ascii_non_letter_content_type_rejected "jazz" " ARTIST"
           (answering (inr artist_found)) Ha H).
Defined.

(** X3. Every request sent goes to the one fixed address, with the two
    headers [Authorization], the bearer token of the token provider, and
    [Content-Type], JSON, and with a timeout of ten seconds. *)
Theorem request_transport
    (query content_type : string) (w : world) (req : request) :
  sent (snd (call (pandora_search_catalog query content_type) w))
    = sent w ++ [req] →
  url req = "https://ce.pandora.com/api/v1/graphql/graphql"
  ∧ headers req
    = [ ("Authorization", "Bearer <replace with test token>");
        ("Content-Type", "application/json") ]
  ∧ timeout req = 10.
Proof.
  intros (code & _ & ->)%sent_inv. repeat split.
Qed.

Lemma request_transport_witness :
  sent (snd (call (pandora_search_catalog "jazz" "track")
               (answering (inl timed_out))))
    = [] ++ [the_request "TR" "jazz"]
  ∧ url (the_request "TR" "jazz")
    = "https://ce.pandora.com/api/v1/graphql/graphql"
  ∧ headers (the_request "TR" "jazz")
    = [ ("Authorization", "Bearer <replace with test token>");
        ("Content-Type", "application/json") ]
  ∧ timeout (the_request "TR" "jazz") = 10.
Proof.
  assert (H : sent (snd (call (pandora_search_catalog "jazz" "track")
                           (answering (inl timed_out))))
              = [] ++ [the_request "TR" "jazz"]) by (vm_compute; reflexivity).
  split; [exact H |].
  exact (request_transport "jazz" "track" (answering (inl timed_out)) _ H).
Defined.

(** X4. What is sent can be read back: for a valid content type and a
    query with no double quote, no backslash and no carriage return, the
    document sent has one string literal, and it is the query, its
    newlines turned to spaces. The empty query is sent like any other. *)
Theorem query_read_back
    (query content_type code : string) (w : world) :
  CONTENT_TYPE_MAP !! Str.upper content_type = Some code →
  GraphQL.plain query = true →
  ∃ doc,
    sends_document query content_type w doc
    ∧ string_literals doc
      = Some [Str.replace Str.newline Str.space query].
Proof.
  intros H Hp. exists (wire_document code query).
  split; [exact (sends_wire_document _ _ _ _ H) |].
  assert (Hc := documented_code _ _ H).
  assert (E : ∀ a b c d : string, a +:+ b +:+ c +:+ d = (a +:+ b +:+ c) +:+ d)
    by (intros; now rewrite !app_assoc).
  unfold string_literals.
  rewrite wire_document_pieces, E, (literal_bodies_head _ _ Hc).
  rewrite (literal_bodies_plain _ _ Hp).
  replace (literal_bodies GraphQL.InString flat_tail)
    with (Some (EmptyString, @nil string)) by (vm_compute; reflexivity).
  now rewrite app_nil_r.
Qed.

Lemma query_read_back_witness :
  CONTENT_TYPE_MAP !! Str.upper "album" = Some "AL"
  ∧ GraphQL.plain two_lines = true
  ∧ (∃ doc,
       sends_document two_lines "album" (answering (inr artist_found)) doc
       ∧ string_literals doc = Some ["space podcasts "])
  ∧ GraphQL.plain EmptyString = true
  ∧ (∃ doc,
       sends_document EmptyString "album" (answering (inr artist_found)) doc
       ∧ string_literals doc = Some [EmptyString]).
Proof.
  assert (H : CONTENT_TYPE_MAP !! Str.upper "album" = Some "AL")
    by (vm_compute; reflexivity).
  split; [exact H |]. split; [reflexivity |]. split; [| split; [reflexivity |]].
  - exact (query_read_back two_lines "album" "AL"
             (answering (inr artist_found)) H eq_refl).
  - exact (query_read_back EmptyString "album" "AL"
             (answering (inr artist_found)) H eq_refl).
Defined.

Lemma scan_cons (m : GraphQL.mode) (c : ascii) (s : string) :
  GraphQL.scan m (String c s)
    = match GraphQL.step m c with
      | None => None
      | Some (m', keep) =>
          match GraphQL.scan m' s with
          | None => None
          | Some (mf, out) => Some (mf, if keep then String c out else out)
          end
      end.
Proof. reflexivity. Qed.

(** X5. Each of the three characters a plain query may not hold breaks
    the document when it is there. After a plain text [a], a backslash
    at the end of the query, a carriage return anywhere, or one double
    quote followed by a plain text with no hash, gives a document that
    no scanner reads to its end: a string literal is broken or left
    open. *)
Theorem unsafe_characters_break_the_document
    (a b content_type code : string) (w : world) :
  CONTENT_TYPE_MAP !! Str.upper content_type = Some code →
  GraphQL.plain a = true →
  (∃ doc,
     sends_document (a +:+ String Str.backslash EmptyString) content_type w doc
     ∧ GraphQL.skeleton doc = None)
  ∧ (∃ doc,
       sends_document (a +:+ String Str.carriage_return b) content_type w doc
       ∧ GraphQL.skeleton doc = None)
  ∧ (GraphQL.plain b = true → Str.contains Str.hash b = false →
     ∃ doc,
       sends_document (a +:+ String Str.dquote b) content_type w doc
       ∧ GraphQL.skeleton doc = None).
Proof.
  intros H Ha. assert (Hc := documented_code _ _ H).
  split; [| split; [| intros Hb Hh]];
    (eexists; split; [exact (sends_wire_document _ _ _ _ H) |]).
  - apply (skeleton_open code _ EmptyString Hc).
    rewrite replace_app, app_assoc, scan_app, (scan_plain _ Ha).
    vm_compute; reflexivity.
  - unfold GraphQL.skeleton.
    rewrite (scan_wire_document _ _ Hc).
    now rewrite replace_app, app_assoc, scan_app, (scan_plain _ Ha).
  - eapply (skeleton_open code _ _ Hc).
    rewrite replace_app, app_assoc, scan_app, (scan_plain _ Ha).
    change (Str.replace Str.newline Str.space (String Str.dquote b)
              +:+ flat_tail)
      with (String Str.dquote
              (Str.replace Str.newline Str.space b +:+ flat_tail)).
    rewrite scan_cons.
    change (GraphQL.step GraphQL.InString Str.dquote)
      with (Some (GraphQL.Code, true)).
    cbv beta iota.
    rewrite scan_app, (scan_code_plain _ Hb Hh).
    replace (GraphQL.scan GraphQL.Code flat_tail)
      with (Some (GraphQL.InString, String Str.dquote EmptyString))
      by (vm_compute; reflexivity).
    reflexivity.
Qed.

Lemma unsafe_characters_break_the_document_witness :
  CONTENT_TYPE_MAP !! Str.upper "artist" = Some "AR"
  ∧ GraphQL.plain "AC" = true
  ∧ GraphQL.plain "DC" = true
  ∧ Str.contains Str.hash "DC" = false
  ∧ (∃ doc,
       sends_document ("AC" +:+ String Str.backslash EmptyString) "artist"
         (answering (inr artist_found)) doc
       ∧ GraphQL.skeleton doc = None)
  ∧ (∃ doc,
       sends_document ("AC" +:+ String Str.carriage_return "DC") "artist"
         (answering (inr artist_found)) doc
       ∧ GraphQL.skeleton doc = None)
  ∧ (∃ doc,
       sends_document ("AC" +:+ String Str.dquote "DC") "artist"
         (answering (inr artist_found)) doc
       ∧ GraphQL.skeleton doc = None).
Proof.
  assert (H : CONTENT_TYPE_MAP !! Str.upper "artist" = Some "AR")
    by (vm_compute; reflexivity).
  assert (Ha : GraphQL.plain "AC" = true) by reflexivity.
  assert (Hb : GraphQL.plain "DC" = true) by reflexivity.
  assert (Hh : Str.contains Str.hash "DC" = false) by reflexivity.
  pose proof (unsafe_characters_break_the_document "AC" "DC" "artist" "AR"
                (answering (inr artist_found)) H Ha) as (H1 & H2 & H3).
  split; [exact H |]. split; [exact Ha |]. split; [exact Hb |].
  split; [exact Hh |]. split; [exact H1 |]. split; [exact H2 |].
  exact (H3 Hb Hh).
Defined.

(** X6. Flattening is idempotent: a document already flattened is left
    as it is by a second flattening. *)
Theorem flatten_idempotent (doc : string) :
  flatten (flatten doc) = flatten doc.
Proof.
  unfold flatten.
  rewrite (replace_absent Str.newline Str.space
             (Str.strip (Str.replace Str.newline Str.space doc))).
  - apply strip_idempotent.
  - unfold Str.strip.
    apply rstrip_contains, lstrip_contains, replace_removes. discriminate.
Qed.

(** X7. After a failed call, [response_text] is [None] exactly when the
    client raised before any response was received; when a response was
    received, [response_text] is the text of its body, the empty text
    for an empty body. *)
Theorem response_text_none_iff_no_response
    (query content_type code : string) (w : world) :
  CONTENT_TYPE_MAP !! Str.upper content_type = Some code →
  call_fails (respond w (the_request code query)) →
  ∃ v,
    fst (call (pandora_search_catalog query content_type) w) = inr v
    ∧ (get "response_text" v = Some VNone
       ↔ ∃ e, respond w (the_request code query) = inl e)
    ∧ (∀ r, respond w (the_request code query) = inr r →
            get "response_text" v = Some (VStr (text r))).
Proof.
  intros H Hf. rewrite (search_valid _ _ _ _ H). cbn [fst].
  eexists. split; [reflexivity |].
  destruct (respond w (the_request code query)) as [e | r].
  - cbn. split; [split; eauto | discriminate].
  - assert (Hs : ∃ e, settle (inr r) = failure e (Some r)).
    { cbn [settle]. destruct Hf as [-> | [e ->]]; [eauto |].
      destruct (Httpx.is_success r); eauto. }
    destruct Hs as [e ->]. cbn. split.
    + split; [discriminate |]. intros [e' [=]].
    + now intros r' [= <-].
Qed.

Lemma response_text_none_iff_no_response_witness :
  CONTENT_TYPE_MAP !! Str.upper "artist" = Some "AR"
  ∧ call_fails (inr empty_reply)
  ∧ ∃ v,
      fst (call (pandora_search_catalog "jazz" "artist")
             (answering (inr empty_reply))) = inr v
      ∧ (get "response_text" v = Some VNone
         ↔ ∃ e, @inr exception response empty_reply = inl e)
      ∧ (∀ r, @inr exception response empty_reply = inr r →
              get "response_text" v = Some (VStr (text r))).
Proof.
  assert (H : CONTENT_TYPE_MAP !! Str.upper "artist" = Some "AR")
    by (vm_compute; reflexivity).
  assert (Hf : call_fails (inr empty_reply)) by (left; reflexivity).
  split; [exact H |]. split; [exact Hf |].
  exact (response_text_none_iff_no_response "jazz" "artist" "AR"
           (answering (inr empty_reply)) H Hf).
Defined.
